(** * Heart-disease BI dashboard (app.py): data loader, risk scorer, exports

    A shallow embedding of the logic of [app.py].  The script is a Streamlit
    page: widgets are read at the top and each tab is a block of straight-line
    code over the variables in scope.  The blocks that compute something
    become functions: the data loader of tab 1, the scorer of tab 2, the
    results table of tab 3 and the two exports of tab 4.  Layout, charts and
    the formatting of the percentage under the metric are not modelled.

    Conventions.
    - A Python [int] is a [Z]; a Python [float] is a primitive binary64
      [float], so that the arithmetic of the scorer is the arithmetic of the
      interpreter, rounding included.  A decimal literal such as [0.4]
      denotes the nearest binary64, in Python as here.
    - A Python [str] is a [string] holding its UTF-8 bytes.  The script only
      compares, concatenates and splits text on ASCII characters, which
      commutes with the encoding, and [str.encode("utf-8")] is the identity
      on this representation.
    - A raised exception is the left injection of a sum ([Py.result]). *)

From Stdlib Require Import ZArith List Bool Lia Ascii String QArith DecimalString.
From Stdlib Require Import PrimFloat Uint63 SpecFloat FloatOps FloatAxioms.
Import ListNotations.

Set Warnings "-inexact-float,-register-all".

Local Open Scope string_scope.
Local Open Scope Z_scope.

(* ================================================================== *)
(** * Text                                                              *)
(* ================================================================== *)

Module Text.

Definition LF : ascii := "010"%char.
Definition CR : ascii := "013"%char.
Definition TAB : ascii := "009"%char.
Definition dquote : ascii := "034"%char.
Definition squote : ascii := "039"%char.
Definition backslash : ascii := "092"%char.

Definition char (c : ascii) : string := String c EmptyString.

Definition code (c : ascii) : Z := Z.of_N (N_of_ascii c).

Fixpoint contains (c : ascii) (s : string) : bool :=
  match s with
  | EmptyString => false
  | String c' s' => Ascii.eqb c c' || contains c s'
  end.

Fixpoint repeat (c : ascii) (n : nat) : string :=
  match n with
  | O => EmptyString
  | S n' => String c (repeat c n')
  end.

(** Decimal numeral of an integer, ["-"] first when negative. *)
Definition of_int (z : Z) : string := NilZero.string_of_int (Z.to_int z).

Definition digit_value (c : ascii) : option Z :=
  let n := code c in
  if (48 <=? n) && (n <=? 57) then Some (n - 48) else None.

(** Value of a numeral made of decimal digits only, [None] on anything else
    and on the empty text. *)
Fixpoint digits_value (acc : Z) (s : string) : option Z :=
  match s with
  | EmptyString => Some acc
  | String c s' =>
      match digit_value c with
      | Some d => digits_value (10 * acc + d) s'
      | None => None
      end
  end.

Definition hex_digit (n : Z) : ascii :=
  ascii_of_N (Z.to_N (if n <? 10 then 48 + n else 87 + n)).

Fixpoint strip_trailing_zeros_rev (s : list ascii) : list ascii :=
  match s with
  | c :: s' => if Ascii.eqb c "0"%char then strip_trailing_zeros_rev s' else s
  | [] => []
  end.

(** Drop the ["0"]s that end a numeral. *)
Definition strip_trailing_zeros (s : string) : string :=
  string_of_list_ascii
    (rev (strip_trailing_zeros_rev (rev (list_ascii_of_string s)))).

End Text.

(* ================================================================== *)
(** * Python values                                                     *)
(* ================================================================== *)

Module Py.

(** Exceptions the script can meet.  The [except:] clauses of the script are
    bare, so the kind only matters to the reader. *)
Inductive exn : Type :=
| KeyError (key : string)
| ValueError (msg : string)
| ParserError (msg : string)
| EmptyDataError (msg : string)
| URLError (msg : string).

Definition result (A : Type) : Type := (exn + A)%type.

Definition ret {A} (a : A) : result A := inr a.
Definition raise {A} (e : exn) : result A := inl e.
Definition bind {A B} (m : result A) (k : A -> result B) : result B :=
  match m with
  | inl e => inl e
  | inr a => k a
  end.

(** [float(z)]: the binary64 nearest to the integer, ties to even.  (Beyond
    the binary64 range Python raises [OverflowError]; no integer of the
    script comes near.) *)
Definition float_of_int (z : Z) : float :=
  SF2Prim (binary_normalize prec emax z 0 false).

(** [a / b] on two [int]s: true division, correctly rounded; with both
    operands exact in binary64 it is the IEEE quotient of the conversions. *)
Definition truediv (a b : Z) : float :=
  PrimFloat.div (float_of_int a) (float_of_int b).

(** [max(a, b)] and [min(a, b)]: the first argument is kept unless the
    second is strictly greater (resp. smaller). *)
Definition max (a b : float) : float := if PrimFloat.ltb a b then b else a.
Definition min (a b : float) : float := if PrimFloat.ltb b a then b else a.

(** [d[k]] on a dict given as its ordered list of items. *)
Fixpoint getitem {V} (d : list (string * V)) (k : string) : result V :=
  match d with
  | [] => raise (KeyError k)
  | (k', v) :: d' => if String.eqb k' k then ret v else getitem d' k
  end.

(** ** [repr] of a float: the shortest numeral that reads back as the float *)

Definition Qpow (b : Z) (k : Z) : Q :=
  if 0 <=? k then inject_Z (b ^ k) else (1 # Z.to_pos (b ^ (- k)))%Q.

Definition Qfloor (q : Q) : Z := Qnum q / Zpos (Qden q).

(** Exact value of the finite float [m * 2^e]. *)
Definition exact_value (m : positive) (e : Z) : Q :=
  Qred (inject_Z (Zpos m) * Qpow 2 e)%Q.

(** The reals that round to [m * 2^e] are those between the midpoints with
    its two neighbours, midpoints included when [m] is even.  The neighbour
    below is half as far when [m] is a power of two above the subnormals. *)
Definition rounds_to (m : positive) (e : Z) (c : Q) : bool :=
  let v := exact_value m e in
  let up := Qpow 2 (e - 1) in
  let down := if (Zpos m =? 2 ^ 52) && (-1074 <? e)
              then Qpow 2 (e - 2) else Qpow 2 (e - 1) in
  if Z.even (Zpos m)
  then Qle_bool (v - down)%Q c && Qle_bool c (v + up)%Q
  else negb (Qle_bool c (v - down)%Q) && negb (Qle_bool (v + up)%Q c).

(** [x] with [10^x <= v < 10^(x+1)], from the position of the leading bit. *)
Definition log10_floor (m : positive) (e : Z) : Z :=
  let v := exact_value m e in
  let est := ((e + Z.log2 (Zpos m)) * 30103) / 100000 in
  if negb (Qle_bool (Qpow 10 est) v) then est - 1
  else if Qle_bool (Qpow 10 (est + 1)) v then est + 1
  else est.

(** The numeral with [n] significant digits nearest to [v], as an integer
    [D] and a power of ten [s] ([D * 10^s]), when it rounds to the float;
    else the other neighbour of [v] on the grid, when that one does. *)
Definition candidate (m : positive) (e : Z) (n : Z) : option (Z * Z) :=
  let v := exact_value m e in
  let s := log10_floor m e - n + 1 in
  let q := Qred (v * Qpow 10 (- s))%Q in
  let lo := Qfloor q in
  let twice := Qred (2 * (q - inject_Z lo))%Q in
  let up_first :=
    if Qle_bool twice 1%Q
    then if Qle_bool 1%Q twice then Z.odd lo else false
    else true in
  let ok D := rounds_to m e (Qred (inject_Z D * Qpow 10 s)%Q) in
  let first := if up_first then lo + 1 else lo in
  let second := if up_first then lo else lo + 1 in
  if ok first then Some (first, s)
  else if ok second then Some (second, s)
  else None.

Fixpoint shortest (m : positive) (e : Z) (n : Z) (fuel : nat) : Z * Z :=
  match fuel with
  | O => (Qfloor (exact_value m e * Qpow 10 (16 - log10_floor m e))%Q,
          log10_floor m e - 16)
  | S fuel' =>
      match candidate m e n with
      | Some r => r
      | None => shortest m e (n + 1) fuel'
      end
  end.

(** Layout of [repr]: plain notation when the decimal point falls within
    [-3, 16] of the first digit, scientific notation otherwise. *)
Definition layout (D s : Z) : string :=
  let all := Text.of_int D in
  let ds := Text.strip_trailing_zeros all in
  let nd := Z.of_nat (String.length ds) in
  let decpt := Z.of_nat (String.length all) + s in
  if (decpt <=? -4) || (16 <? decpt) then
    let x := decpt - 1 in
    let mant := match ds with
                | String c EmptyString => Text.char c
                | String c rest => String c ("." ++ rest)
                | EmptyString => EmptyString
                end in
    let ex := Text.of_int (Z.abs x) in
    mant ++ "e" ++ (if x <? 0 then "-" else "+")
         ++ (if Z.abs x <? 10 then "0" else "") ++ ex
  else if decpt <=? 0 then
    "0." ++ Text.repeat "0"%char (Z.to_nat (- decpt)) ++ ds
  else if nd <=? decpt then
    ds ++ Text.repeat "0"%char (Z.to_nat (decpt - nd)) ++ ".0"
  else
    substring 0 (Z.to_nat decpt) ds ++ "."
      ++ substring (Z.to_nat decpt) (Z.to_nat (nd - decpt)) ds.

Definition repr_float (f : float) : string :=
  match Prim2SF f with
  | S754_nan => "nan"
  | S754_infinity sg => if sg then "-inf" else "inf"
  | S754_zero sg => if sg then "-0.0" else "0.0"
  | S754_finite sg m e =>
      let '(D, s) := shortest m e 1 17 in
      (if sg then "-" else "") ++ layout D s
  end.

(** ** [repr] of a string *)

Definition repr_char (quote : ascii) (c : ascii) : string :=
  let n := Text.code c in
  if Ascii.eqb c Text.backslash then "\\"
  else if Ascii.eqb c quote then String Text.backslash (Text.char quote)
  else if Ascii.eqb c Text.LF then "\n"
  else if Ascii.eqb c Text.CR then "\r"
  else if Ascii.eqb c Text.TAB then "\t"
  else if (n <? 32) || (n =? 127) then
    "\x" ++ Text.char (Text.hex_digit (n / 16))
         ++ Text.char (Text.hex_digit (n mod 16))
  else Text.char c.

Fixpoint repr_chars (quote : ascii) (s : string) : string :=
  match s with
  | EmptyString => EmptyString
  | String c s' => repr_char quote c ++ repr_chars quote s'
  end.

(** Single quotes, unless the text has a single quote and no double quote.
    Bytes above 127 are kept: every non-ASCII character of the script is
    printable. *)
Definition repr_str (s : string) : string :=
  let quote :=
    if Text.contains Text.squote s && negb (Text.contains Text.dquote s)
    then Text.dquote else Text.squote in
  Text.char quote ++ repr_chars quote s ++ Text.char quote.

(** ** Objects *)

Inductive object : Type :=
| Str (s : string)
| Int (z : Z)
| Float (f : float)
| Bool (b : bool)
| List (items : list object)
| Dict (items : list (string * object)).

Fixpoint repr (v : object) : string :=
  match v with
  | Str s => repr_str s
  | Int z => Text.of_int z
  | Float f => repr_float f
  | Bool b => if b then "True" else "False"
  | List items => "[" ++ String.concat ", " (map repr items) ++ "]"
  | Dict items =>
      "{" ++ String.concat ", "
               (map (fun kv => repr_str (fst kv) ++ ": " ++ repr (snd kv)) items)
          ++ "}"
  end.

(** [str(v)]: the text itself for a [str], [repr(v)] for the other kinds. *)
Definition str (v : object) : string :=
  match v with
  | Str s => s
  | _ => repr v
  end.

End Py.

Notation "x <- m ;; k" := (Py.bind m (fun x => k))
  (at level 61, m at next level, right associativity).

(* ================================================================== *)
(** * pandas: frames, CSV writer and reader                             *)
(* ================================================================== *)

(** The script builds frames from literals, renames columns, writes one frame
    as CSV and reads CSV.  pandas is a library the script imports; what
    follows models the behaviour of the calls the script makes, with their
    default arguments. *)

Module pd.

(** A column carries its dtype: [int64], [float64], [bool], or [object]. *)
Inductive Column : Type :=
| Int64 (values : list Z)
| Float64 (values : list float)
| Boolean (values : list bool)
| Object (values : list Py.object).

(** A frame is the ordered list of its named columns; all columns of a frame
    have the same length. *)
Definition DataFrame : Type := list (string * Column).

Definition columns (df : DataFrame) : list string := map fst df.
Definition data (df : DataFrame) : list Column := map snd df.

Definition size (c : Column) : nat :=
  match c with
  | Int64 v => List.length v
  | Float64 v => List.length v
  | Boolean v => List.length v
  | Object v => List.length v
  end.

(** [len(df)] *)
Definition len (df : DataFrame) : nat :=
  match df with
  | [] => O
  | (_, c) :: _ => size c
  end.

(** [df.columns = names]: the new index must have one name per column. *)
Definition set_columns (df : DataFrame) (names : list string)
  : Py.result DataFrame :=
  if Nat.eqb (List.length names) (List.length df)
  then Py.ret (combine names (data df))
  else Py.raise (Py.ValueError
         ("Length mismatch: Expected axis has "
            ++ Text.of_int (Z.of_nat (List.length df))
            ++ " elements, new values have "
            ++ Text.of_int (Z.of_nat (List.length names)) ++ " elements")).

(** ** [df.to_csv(index=False)] *)

Definition nan : float := PrimFloat.nan.

Definition is_missing (v : Py.object) : bool :=
  match v with
  | Py.Float f => PrimFloat.is_nan f
  | _ => false
  end.

(** Text of the cells of a column; a missing value is written as the empty
    text ([na_rep]). *)
Definition cells (c : Column) : list string :=
  match c with
  | Int64 v => map Text.of_int v
  | Float64 v =>
      map (fun f => if PrimFloat.is_nan f then "" else Py.repr_float f) v
  | Boolean v => map (fun b : bool => if b then "True" else "False") v
  | Object v => map (fun o => if is_missing o then "" else Py.str o) v
  end.

Fixpoint double_quotes (s : string) : string :=
  match s with
  | EmptyString => EmptyString
  | String c s' =>
      if Ascii.eqb c Text.dquote
      then String c (String c (double_quotes s'))
      else String c (double_quotes s')
  end.

(** [csv.QUOTE_MINIMAL]: a field is quoted when it holds the delimiter, the
    quote character or a line break. *)
Definition quote_minimal (field : string) : string :=
  if Text.contains ","%char field || Text.contains Text.dquote field
     || Text.contains Text.LF field || Text.contains Text.CR field
  then Text.char Text.dquote ++ double_quotes field ++ Text.char Text.dquote
  else field.

(** A record of one empty field is written as a pair of quotes. *)
Definition write_row (fields : list string) : string :=
  match fields with
  | [EmptyString] => Text.char Text.dquote ++ Text.char Text.dquote
  | _ => String.concat "," (map quote_minimal fields)
  end.

Fixpoint transpose (n : nat) (cols : list (list string)) : list (list string) :=
  match n with
  | O => []
  | S n' => map (hd EmptyString) cols :: transpose n' (map (@tl string) cols)
  end.

(** The line terminator is [os.linesep]. *)
Definition to_csv (linesep : string) (df : DataFrame) : string :=
  String.concat ""
    (map (fun r => write_row r ++ linesep)
         (columns df :: transpose (len df) (map cells (data df)))).

(** ** [pd.read_csv] on the text of a file *)

Inductive tok_state : Type :=
| FieldStart      (* nothing read of the current field *)
| InField         (* inside an unquoted field *)
| InQuoted        (* inside a quoted field *)
| QuoteInQuoted   (* a quote met inside a quoted field *)
| AfterCR.        (* a record was closed by a carriage return *)

Definition push (field : list ascii) (record : list string) : list string :=
  string_of_list_ascii (rev field) :: record.

(** The tokenizer.  [field] and [record] are the current field and record,
    last first; [records] are the closed records, last first.  A line with
    nothing on it is skipped. *)
Fixpoint tokenize (s : string) (st : tok_state) (field : list ascii)
  (record : list string) (records : list (list string))
  : Py.result (list (list string)) :=
  let close := rev (push field record) :: records in
  match s with
  | EmptyString =>
      match st with
      | InQuoted => Py.raise (Py.ParserError "Error tokenizing data. C error: EOF inside string")
      | FieldStart | AfterCR =>
          match record with
          | [] => Py.ret (rev records)
          | _ => Py.ret (rev close)
          end
      | _ => Py.ret (rev close)
      end
  | String c s' =>
      let on c' := Ascii.eqb c c' in
      match st with
      | FieldStart | AfterCR =>
          if on Text.LF then
            match st, record with
            | AfterCR, _ => tokenize s' FieldStart [] [] records
            | _, [] => tokenize s' FieldStart [] [] records
            | _, _ => tokenize s' FieldStart [] [] close
            end
          else if on Text.CR then
            match record with
            | [] => tokenize s' AfterCR [] [] records
            | _ => tokenize s' AfterCR [] [] close
            end
          else if on ","%char then
            tokenize s' FieldStart [] (push field record) records
          else if on Text.dquote then tokenize s' InQuoted [] record records
          else tokenize s' InField [c] record records
      | InField =>
          if on Text.LF then tokenize s' FieldStart [] [] close
          else if on Text.CR then tokenize s' AfterCR [] [] close
          else if on ","%char then
            tokenize s' FieldStart [] (push field record) records
          else tokenize s' InField (c :: field) record records
      | InQuoted =>
          if on Text.dquote then tokenize s' QuoteInQuoted field record records
          else tokenize s' InQuoted (c :: field) record records
      | QuoteInQuoted =>
          if on Text.dquote then tokenize s' InQuoted (c :: field) record records
          else if on Text.LF then tokenize s' FieldStart [] [] close
          else if on Text.CR then tokenize s' AfterCR [] [] close
          else if on ","%char then
            tokenize s' FieldStart [] (push field record) records
          else tokenize s' InField (c :: field) record records
      end
  end.

(** Markers read as a missing value ([na_values]). *)
Definition na_values : list string :=
  [ ""; "#N/A"; "#N/A N/A"; "#NA"; "-1.#IND"; "-1.#QNAN"; "-NaN"; "-nan";
    "1.#IND"; "1.#QNAN"; "<NA>"; "N/A"; "NA"; "NULL"; "NaN"; "None"; "n/a";
    "nan"; "null" ].

Definition is_na (s : string) : bool := existsb (String.eqb s) na_values.

Definition split_sign (s : string) : bool * string :=
  match s with
  | String "-"%char s' => (true, s')
  | String "+"%char s' => (false, s')
  | _ => (false, s)
  end.

(** An [int64] numeral: a sign and digits, the value within 64 bits. *)
Definition parse_int (s : string) : option Z :=
  let '(neg, body) := split_sign s in
  match body with
  | EmptyString => None
  | _ =>
      match Text.digits_value 0 body with
      | Some n =>
          let z := if neg then - n else n in
          if (- 2 ^ 63 <=? z) && (z <? 2 ^ 63) then Some z else None
      | None => None
      end
  end.

(** Digits at the head of a text: how many were read (at most [room] enter
    the number, as the reader keeps 17), the number, how many were dropped,
    and the rest of the text. *)
Fixpoint read_digits (s : string) (room : nat) (number : float)
  (kept dropped : Z) : float * Z * Z * string :=
  match s with
  | String c s' =>
      match Text.digit_value c with
      | Some d =>
          match room with
          | O => read_digits s' O number kept (dropped + 1)
          | S room' =>
              read_digits s' room'
                (number * 10 + Py.float_of_int d)%float (kept + 1) dropped
          end
      | None => (number, kept, dropped, s)
      end
  | EmptyString => (number, kept, dropped, s)
  end.

(** [1eK] as the C compiler reads it. *)
Definition pow10 (k : Z) : float := Py.float_of_int (10 ^ k).

(** The float reader of the C parser: digits, a decimal point and digits,
    an exponent; the number is accumulated in binary64 over at most 17
    digits and scaled by one power of ten. *)
Definition parse_float (s : string) : option float :=
  let '(neg, body) := split_sign s in
  let '(n1, k1, d1, rest1) := read_digits body 17 PrimFloat.zero 0 0 in
  let '(n2, k2, rest2) :=
    match rest1 with
    | String "."%char r =>
        let '(n, k, _, r') := read_digits r (Z.to_nat (17 - k1)) n1 0 0 in
        (n, k, r')
    | _ => (n1, 0, rest1)
    end in
  let digits_seen := negb (String.eqb rest2 body) && negb (String.eqb body ".") in
  let expo : option Z :=
    match rest2 with
    | EmptyString => Some 0
    | String c r =>
        if Ascii.eqb c "e"%char || Ascii.eqb c "E"%char then
          let '(eneg, ebody) := split_sign r in
          match ebody with
          | EmptyString => None
          | _ => option_map (fun x => if eneg then - x else x)
                            (Text.digits_value 0 ebody)
          end
        else None
    end in
  match expo with
  | Some x =>
      if negb digits_seen || ((k1 + k2 =? 0) && (d1 =? 0)) then None
      else
        let number := if neg then (- n2)%float else n2 in
        let e := x + d1 - k2 in
        Some (if 308 <? e then
                (if neg then PrimFloat.neg_infinity else PrimFloat.infinity)
              else if 0 <? e then (number * pow10 e)%float
              else if e <? -616 then (number * 0)%float
              else if e <? -308 then (number / pow10 (- 308 - e) / pow10 308)%float
              else (number / pow10 (- e))%float)
  | None => None
  end.

Definition parse_bool (s : string) : option bool :=
  if existsb (String.eqb s) ["True"; "TRUE"; "true"] then Some true
  else if existsb (String.eqb s) ["False"; "FALSE"; "false"] then Some false
  else None.

Fixpoint all_some {A} (l : list (option A)) : option (list A) :=
  match l with
  | [] => Some []
  | Some a :: l' => option_map (cons a) (all_some l')
  | None :: _ => None
  end.

(** dtype inference on the fields of one column: [int64] when every field is
    an integer, else [float64] when every field is a number or a missing
    value, else [bool], else [object]. *)
Definition infer (fields : list string) : Column :=
  match fields with
  | [] => Object []
  | _ =>
    match all_some (map parse_int fields) with
    | Some v => Int64 v
    | None =>
      match all_some (map (fun s => if is_na s then Some nan
                                    else parse_float s) fields) with
      | Some v => Float64 v
      | None =>
        match all_some (map parse_bool fields) with
        | Some v => Boolean v
        | None =>
            Object (map (fun s => if is_na s then Py.Float nan
                                  else Py.Str s) fields)
        end
      end
    end
  end.

(** A data row may not have more fields than the header; a shorter one is
    completed with missing values. *)
Fixpoint check_rows (width : nat) (line : Z) (rows : list (list string))
  : Py.result (list (list string)) :=
  match rows with
  | [] => Py.ret []
  | r :: rows' =>
      if Nat.ltb width (List.length r) then
        Py.raise (Py.ParserError
          ("Error tokenizing data. C error: Expected "
             ++ Text.of_int (Z.of_nat width) ++ " fields in line "
             ++ Text.of_int line ++ ", saw "
             ++ Text.of_int (Z.of_nat (List.length r))))
      else
        rest <- check_rows width (line + 1) rows' ;;
        Py.ret ((r ++ List.repeat EmptyString (width - List.length r))%list :: rest)
  end.

Fixpoint count_occ_str (l : list string) (s : string) : nat :=
  match l with
  | [] => O
  | x :: l' => (if String.eqb x s then 1 else 0) + count_occ_str l' s
  end.

(** Header names: an empty name becomes [Unnamed: i], a repeated name gets
    the suffix [.k] at its k-th repetition. *)
Fixpoint header_names (seen : list string) (i : Z) (names : list string)
  : list string :=
  match names with
  | [] => []
  | n :: names' =>
      let n0 := if String.eqb n "" then "Unnamed: " ++ Text.of_int i else n in
      let k := count_occ_str seen n0 in
      let n1 := match k with
                | O => n0
                | _ => n0 ++ "." ++ Text.of_int (Z.of_nat k)
                end in
      n1 :: header_names (n0 :: seen) (i + 1) names'
  end.

Fixpoint columns_of (width : nat) (rows : list (list string))
  : list (list string) :=
  match width with
  | O => []
  | S w => map (hd EmptyString) rows :: columns_of w (map (@tl string) rows)
  end.

(** [pd.read_csv] on a text: the first record is the header.  (An index
    column implied by rows longer than the header is not modelled: such a
    text is reported as a parser error.) *)
Definition read_csv_text (text : string) : Py.result DataFrame :=
  records <- tokenize text FieldStart [] [] [] ;;
  match records with
  | [] => Py.raise (Py.EmptyDataError "No columns to parse from file")
  | header :: rows =>
      rows' <- check_rows (List.length header) 2 rows ;;
      Py.ret (combine (header_names [] 0 header)
                      (map infer (columns_of (List.length header) rows')))
  end.

End pd.

(* ================================================================== *)
(** * Sidebar                                                           *)
(* ================================================================== *)

(** The three entries of the model select box. *)
Inductive ModelChoice : Type := XGBoost | RandomForest | Logistic.

(** The text of each entry, which is what [st.sidebar.selectbox] returns. *)
Definition option_text (m : ModelChoice) : string :=
  match m with
  | XGBoost => "XGBoost (89.4%) ✅"
  | RandomForest => "RandomForest (87.8%)"
  | Logistic => "Logistic (84.6%)"
  end.

Definition model_options : list string :=
  map option_text [XGBoost; RandomForest; Logistic].

(* ================================================================== *)
(** * Tab 1: the data loader                                            *)
(* ================================================================== *)

(** What [pd.read_csv] is given: the uploaded file, by its content, or the
    address of the remote file. *)
Inductive source : Type :=
| Upload (content : string)
| Remote (url : string).

Definition url : string :=
  "https://raw.githubusercontent.com/sharmaroshan/Heart-UCI-Dataset/master/heart.csv".

(** The fourteen names assigned to the remote table, lines 62-65. *)
Definition heart_columns : list string :=
  [ "age"; "sex"; "cp"; "trestbps"; "chol"; "fbs"; "restecg";
    "thalach"; "exang"; "oldpeak"; "slope"; "ca"; "thal"; "target" ].

(** The frame of the [except] branch, lines 68-73. *)
Definition fallback_df : pd.DataFrame :=
  [ ("age", pd.Int64 [45; 55; 65]);
    ("chol", pd.Int64 [210; 260; 320]);
    ("thalach", pd.Int64 [150; 140; 120]);
    ("target", pd.Int64 [0; 1; 1]) ].

(** What the page shows besides the data: [st.warning]. *)
Inductive banner : Type :=
| warning (msg : string).

Definition fallback_warning : banner :=
  warning "⚠️ Problème dataset – données par défaut utilisées".

Section Loader.

(** [pd.read_csv] reads the upload or fetches the remote file, and parses
    what it got; it answers with a frame or raises.  It is the environment
    of the loader. *)
Variable read_csv : source -> Py.result pd.DataFrame.

(** Body of the [try], lines 57-65. *)
Definition load_try (uploaded_file : option string) : Py.result pd.DataFrame :=
  match uploaded_file with
  | Some f => read_csv (Upload f)
  | None =>
      df <- read_csv (Remote url) ;;
      pd.set_columns df heart_columns
  end.

(** Lines 54-73: the frame in [df] after the [try]/[except] and the banners
    emitted. *)
Definition load (uploaded_file : option string) : pd.DataFrame * list banner :=
  match load_try uploaded_file with
  | inr df => (df, [])
  | inl _ => (fallback_df, [fallback_warning])
  end.

(** The three ways the [try] can raise: the upload cannot be read, the remote
    file cannot be fetched or parsed, or the remote table does not have one
    column per name. *)
Definition load_raises (uploaded_file : option string) : Prop :=
  match uploaded_file with
  | Some f => exists e, read_csv (Upload f) = Py.raise e
  | None =>
      (exists e, read_csv (Remote url) = Py.raise e)
      \/ (exists df, read_csv (Remote url) = Py.ret df
                     /\ List.length df <> List.length heart_columns)
  end.

End Loader.

(** A [pd.read_csv] over a given network: the content of an upload is parsed
    as it is, a remote file is fetched first. *)
Definition read_csv_over (urlopen : string -> Py.result string) (src : source)
  : Py.result pd.DataFrame :=
  match src with
  | Upload content => pd.read_csv_text content
  | Remote address => text <- urlopen address ;; pd.read_csv_text text
  end.

(** ** Two sample environments *)

(** An upload whose last field opens a quote and never closes it. *)
Definition broken_upload : string :=
  "age,chol,thalach,target" ++ Text.char Text.LF
    ++ Text.char Text.dquote ++ "45,210,150,0".

Definition offline (address : string) : Py.result string :=
  Py.raise (Py.URLError "Name or service not known").

(** A remote file of fourteen columns under other names. *)
Definition remote_sample : string :=
  "a,b,c,d,e,f,g,h,i,j,k,l,m,n" ++ Text.char Text.LF
    ++ "63,1,3,145,233,1,0,150,0,2.3,0,0,1,1" ++ Text.char Text.LF
    ++ "37,1,2,130,250,0,1,187,0,3.5,0,0,2,1" ++ Text.char Text.LF.

Definition remote_frame : pd.DataFrame :=
  [ ("a", pd.Int64 [63; 37]); ("b", pd.Int64 [1; 1]); ("c", pd.Int64 [3; 2]);
    ("d", pd.Int64 [145; 130]); ("e", pd.Int64 [233; 250]);
    ("f", pd.Int64 [1; 0]); ("g", pd.Int64 [0; 1]); ("h", pd.Int64 [150; 187]);
    ("i", pd.Int64 [0; 0]); ("j", pd.Float64 [2.3; 3.5]%float);
    ("k", pd.Int64 [0; 0]); ("l", pd.Int64 [0; 0]); ("m", pd.Int64 [1; 2]);
    ("n", pd.Int64 [1; 1]) ].

Definition online (address : string) : Py.result string :=
  Py.ret remote_sample.

(* ================================================================== *)
(** * Tab 2: the risk scorer                                            *)
(* ================================================================== *)

Definition scores_modeles : list (string * float) :=
  [ ("XGBoost (89.4%) ✅", 0.89%float);
    ("RandomForest (87.8%)", 0.87%float);
    ("Logistic (84.6%)", 0.84%float) ].

(** Bounds of the three sliders and entries of the chest-pain select box. *)
Definition age_range : Z * Z := (20, 80).
Definition chol_range : Z * Z := (100, 600).
Definition thalach_range : Z * Z := (70, 220).
Definition cp_options : list Z := [1; 2; 3; 4].

Definition in_slider (r : Z * Z) (v : Z) : Prop := fst r <= v <= snd r.

(** [risque], lines 119-124; Python's [+] and [-] associate to the left. *)
Definition risque (age chol thalach : Z) : float :=
  (0.4 + Py.truediv (age - 50) 200
       + Py.truediv (chol - 250) 1500
       - Py.truediv (thalach - 150) 400)%float.

(** The argument of the clamp on line 127. *)
Definition raw_score (base_score r : float) : float :=
  (base_score + (r - 0.4) / 2)%float.

Definition MALADIE : string := "🫀 MALADIE".
Definition SAIN : string := "✅ SAIN".

(** What the metric of the prediction shows. *)
Record Prediction : Type := mkPrediction { proba : float; value : string }.

(** Body of [if submit:], lines 119-136.  [cp] is read from its widget in the
    same form and is in scope here. *)
Definition predict (model_choice : string) (age chol thalach cp : Z)
  : Py.result Prediction :=
  let r := risque age chol thalach in
  base_score <- Py.getitem scores_modeles model_choice ;;
  let p := Py.min 0.95%float (Py.max 0.05%float (raw_score base_score r)) in
  Py.ret {| proba := p;
            value := if PrimFloat.leb 0.6%float p then MALADIE else SAIN |}.

(** ** The scorer as the specification words it *)

Inductive Label : Type := disease | healthy.

(** The text the page shows for each label. *)
Definition shown (l : Label) : string :=
  match l with
  | disease => MALADIE
  | healthy => SAIN
  end.

Definition spec_base (m : ModelChoice) : float :=
  match m with
  | XGBoost => 0.89%float
  | RandomForest => 0.87%float
  | Logistic => 0.84%float
  end.

Definition spec_clamp (v lower upper : float) : float :=
  if PrimFloat.ltb v lower then lower
  else if PrimFloat.ltb upper v then upper
  else v.

Definition spec_risk (age chol thalach : Z) : float :=
  (0.4 + Py.truediv (age - 50) 200
       + Py.truediv (chol - 250) 1500
       - Py.truediv (thalach - 150) 400)%float.

Definition spec_proba (m : ModelChoice) (age chol thalach : Z) : float :=
  spec_clamp (spec_base m + (spec_risk age chol thalach - 0.4) / 2)%float
             0.05%float 0.95%float.

Definition spec_label (p : float) : Label :=
  if PrimFloat.leb 0.6%float p then disease else healthy.

(** ** Exhaustive sweep of the slider domain

    The sliders take integer values, so the domain of the scorer is finite:
    61 * 501 * 151 points for each of the three base scores.  The sweep
    evaluates [point_ok] at every one of them; the three quotients of
    [risque] are tabulated once per slider. *)

Definition Zrange (r : Z * Z) : list Z :=
  map (fun i => fst r + Z.of_nat i) (seq 0 (Z.to_nat (snd r - fst r + 1))).

(** Facts checked on the unclamped score [x]: the nested [min]/[max] of the
    script is the clamp of the specification, and the clamped value lies in
    [0.05, 0.95] and is at least 0.6275 and 0.6. *)
Definition point_ok (x : float) : bool :=
  let p := Py.min 0.95%float (Py.max 0.05%float x) in
  PrimFloat.Leibniz.eqb p (spec_clamp x 0.05%float 0.95%float)
  && PrimFloat.leb 0.05%float p && PrimFloat.leb p 0.95%float
  && PrimFloat.leb 0.6275%float p && PrimFloat.leb 0.6%float p.

Definition age_terms : list float :=
  map (fun age => Py.truediv (age - 50) 200) (Zrange age_range).
Definition chol_terms : list float :=
  map (fun chol => Py.truediv (chol - 250) 1500) (Zrange chol_range).
Definition thalach_terms : list float :=
  map (fun thalach => Py.truediv (thalach - 150) 400) (Zrange thalach_range).

Definition sweep_at (r : float) : bool :=
  forallb (fun m => point_ok (raw_score (spec_base m) r))
          [XGBoost; RandomForest; Logistic].

(* ================================================================== *)
(** * Tab 3 and tab 4: results table and exports                        *)
(* ================================================================== *)

(** Lines 156-161. *)
Definition results_df : pd.DataFrame :=
  [ ("Modèle",
     pd.Object [Py.Str "XGBoost"; Py.Str "RandomForest"; Py.Str "Logistic"]);
    ("Accuracy (%)", pd.Float64 [89.4; 87.9; 84.8]%float);
    ("F1-Score (%)", pd.Float64 [89.4; 87.8; 84.6]%float);
    ("ROC-AUC (%)", pd.Float64 [95.6; 94.5; 91.2]%float) ].

(** Lines 191-195. *)
Definition json_data : Py.object :=
  Py.Dict
    [ ("meilleur_modele", Py.Str "XGBoost");
      ("f1_score_max", Py.Float 89.4%float);
      ("features_importantes",
       Py.List [Py.Str "thalach"; Py.Str "oldpeak"; Py.Str "cp"]) ].

(** The host decides [os.linesep], the line terminator of [to_csv]. *)
Inductive OS : Type := Posix | Windows.

Definition linesep (os : OS) : string :=
  match os with
  | Posix => Text.char Text.LF
  | Windows => Text.char Text.CR ++ Text.char Text.LF
  end.

(** [s.encode("utf-8")], on texts held as their UTF-8 bytes. *)
Definition encode_utf8 (s : string) : string := s.

(** The variables of the script in scope when tab 4 runs. *)
Module Session.

Record t : Type := mk {
  uploaded_file : option string;
  model_choice : string;
  n_estimators : Z;
  df : pd.DataFrame;
  age : Z;
  chol : Z;
  thalach : Z;
  cp : Z;
  submit : bool
}.

End Session.

(** The two download buttons: data, file name and MIME type. *)
Record Download : Type := mkDownload {
  data : string;
  file_name : string;
  mime : string
}.

(** Lines 188-189. *)
Definition export_csv (os : OS) (s : Session.t) : Download :=
  let csv := encode_utf8 (pd.to_csv (linesep os) results_df) in
  {| data := csv; file_name := "resultats_modeles.csv"; mime := "text/csv" |}.

(** Lines 191-203. *)
Definition export_json (s : Session.t) : Download :=
  {| data := Py.str json_data;
     file_name := "resultats.json";
     mime := "application/json" |}.

(** The lines of a text that a host would write. *)
Definition text_lines (os : OS) (lines : list string) : string :=
  String.concat "" (map (fun l => l ++ linesep os) lines).

(* ================================================================== *)
(** * The rest of the page                                              *)
(* ================================================================== *)

(** ** Tab 1: what is shown of the frame *)

(** [name in df] and [name in df.columns], lines 78 and 82. *)
Definition has_column (name : string) (df : pd.DataFrame) : bool :=
  existsb (String.eqb name) (pd.columns df).

(** The columns that [df[name]] selects: one for a name that occurs once,
    several for a repeated name, none (a [KeyError]) for an absent one. *)
Definition select (df : pd.DataFrame) (name : string) : list pd.Column :=
  map snd (filter (fun c => String.eqb (fst c) name) df).

(** The metrics of lines 76 and 77. *)
Definition metric_lignes (df : pd.DataFrame) : nat := pd.len df.
Definition metric_colonnes (df : pd.DataFrame) : nat :=
  List.length (pd.columns df).

(** The condition of line 82 under which the histogram is drawn. *)
Definition histogram_shown (df : pd.DataFrame) : bool :=
  has_column "target" df && has_column "age" df.

(** An upload with neither an age nor a target column. *)
Definition plain_upload : string :=
  "a,b" ++ Text.char Text.LF ++ "1,2" ++ Text.char Text.LF.

(** ** Tab 2: the metric of the form *)

(** The probability of line 127 for a base score and a risk. *)
Definition clamp_score (base_score r : float) : float :=
  Py.min 0.95%float (Py.max 0.05%float (raw_score base_score r)).


(** ** Tab 3: the three pictures, lines 174-180 *)

Inductive element : Type :=
| image (file caption : string)
| info (msg : string).

Definition images_info : element :=
  info "📂 Images disponibles localement pour le rapport final.".

Section Pictures.

(** [st.image] on a file name: it raises when the file cannot be opened.
    An element already sent to the page stays on it. *)
Variable open_image : string -> Py.result unit.

Definition show_pictures : list element :=
  match open_image "eda.png" with
  | inl _ => [images_info]
  | inr _ =>
      image "eda.png" "Analyse exploratoire des données" ::
      match open_image "importance.png" with
      | inl _ => [images_info]
      | inr _ =>
          image "importance.png" "Importance des variables" ::
          match open_image "confusion.png" with
          | inl _ => [images_info]
          | inr _ => [image "confusion.png" "Matrice de confusion"]
          end
      end
  end.

End Pictures.

Definition pictures : list element :=
  [ image "eda.png" "Analyse exploratoire des données";
    image "importance.png" "Importance des variables";
    image "confusion.png" "Matrice de confusion" ].

Definition picture_files : list string :=
  [ "eda.png"; "importance.png"; "confusion.png" ].

(** ** Sweeps of the slider domain along one slider

    Each sweep compares the probability at every point of the domain with the
    probability one step further along one slider, for the three models. *)

Definition adjacent {A} (l : list A) : list (A * A) := combine l (tl l).

Definition models : list ModelChoice := [XGBoost; RandomForest; Logistic].

(** The probability does not decrease from risk [r] to risk [r']. *)
Definition step_ok (r r' : float) : bool :=
  forallb (fun m => PrimFloat.leb (clamp_score (spec_base m) r)
                                  (clamp_score (spec_base m) r'))
          models.

(** At risk [r], the three probabilities are ordered as the base scores. *)
Definition order_ok (r : float) : bool :=
  PrimFloat.leb (clamp_score (spec_base Logistic) r)
                (clamp_score (spec_base RandomForest) r)
  && PrimFloat.leb (clamp_score (spec_base RandomForest) r)
                   (clamp_score (spec_base XGBoost) r).

(* ================================================================== *)
(** * Properties                                                        *)
(* ================================================================== *)

Lemma Zrange_In (r : Z * Z) (v : Z) : in_slider r v -> In v (Zrange r).
Proof.
  unfold in_slider, Zrange. intros [Hlo Hhi].
  apply in_map_iff. exists (Z.to_nat (v - fst r)). split.
  - lia.
  - apply in_seq. lia.
Qed.

Lemma forallb_table (P : float -> bool) (f : Z -> float) (r : Z * Z) :
  forallb P (map f (Zrange r)) = true ->
  forall v, in_slider r v -> P (f v) = true.
Proof.
  intros H v Hv. rewrite forallb_forall in H.
  apply H, in_map, Zrange_In, Hv.
Qed.

(** The sweep itself, evaluated by the virtual machine. *)
Lemma sweep_true :
  forallb (fun ta =>
    forallb (fun tc =>
      let a := (0.4 + ta + tc)%float in
      forallb (fun tt => sweep_at (a - tt)%float) thalach_terms)
      chol_terms)
    age_terms = true.
Proof. vm_cast_no_check (eq_refl true). Qed.

Lemma sweep_sound (age chol thalach : Z) :
  in_slider age_range age -> in_slider chol_range chol ->
  in_slider thalach_range thalach ->
  forall m, point_ok (raw_score (spec_base m) (risque age chol thalach)) = true.
Proof.
  intros Ha Hc Ht m.
  pose proof (forallb_table _ _ _ sweep_true age Ha) as H1. cbv beta in H1.
  pose proof (forallb_table _ _ _ H1 chol Hc) as H2. cbv beta zeta in H2.
  pose proof (forallb_table _ _ _ H2 thalach Ht) as H3. cbv beta in H3.
  unfold sweep_at in H3. rewrite forallb_forall in H3.
  apply H3. destruct m; simpl; auto.
Qed.

(** The dictionary of base scores has an entry for every option of the select
    box, and it is the base score of the specification. *)
Lemma getitem_scores (m : ModelChoice) :
  Py.getitem scores_modeles (option_text m) = Py.ret (spec_base m).
Proof. destruct m; reflexivity. Qed.

(** Every entry of the select box has a base score. *)
Lemma scores_cover_options (text : string) :
  In text model_options ->
  exists base_score, Py.getitem scores_modeles text = Py.ret base_score.
Proof.
  unfold model_options. rewrite in_map_iff. intros (m & <- & _).
  exists (spec_base m). apply getitem_scores.
Qed.

Lemma predict_unfold (m : ModelChoice) (age chol thalach cp : Z) :
  predict (option_text m) age chol thalach cp =
  let p := Py.min 0.95%float
             (Py.max 0.05%float
                (raw_score (spec_base m) (risque age chol thalach))) in
  Py.ret {| proba := p;
            value := if PrimFloat.leb 0.6%float p then MALADIE else SAIN |}.
Proof. unfold predict. rewrite getitem_scores. reflexivity. Qed.

Ltac split_andb :=
  repeat match goal with
         | H : _ && _ = true |- _ => apply andb_prop in H; destruct H
         end.

Ltac slider_bounds := unfold in_slider; simpl; lia.

Section Scorer.

Variables age chol thalach : Z.
Hypothesis Hage : in_slider age_range age.
Hypothesis Hchol : in_slider chol_range chol.
Hypothesis Hthalach : in_slider thalach_range thalach.

(** Over the sliders, the prediction is made of the clamped score and of the
    text chosen by the 0.6 threshold. *)
Lemma predict_in_domain (m : ModelChoice) (cp : Z) :
  exists p,
    predict (option_text m) age chol thalach cp =
      Py.ret {| proba := p;
                value := if PrimFloat.leb 0.6%float p then MALADIE else SAIN |}
    /\ p = spec_proba m age chol thalach
    /\ PrimFloat.leb 0.05%float p = true
    /\ PrimFloat.leb p 0.95%float = true
    /\ PrimFloat.leb 0.6275%float p = true
    /\ PrimFloat.leb 0.6%float p = true.
Proof.
  pose proof (sweep_sound age chol thalach Hage Hchol Hthalach m) as H.
  unfold point_ok in H. cbv zeta in H. split_andb.
  eexists. split; [apply predict_unfold|]. cbv zeta.
  repeat split; try assumption.
  apply FloatAxioms.Leibniz.eqb_spec. assumption.
Qed.

(** C1. For every age in [20,80], chol in [100,600], thalach in [70,220],
    cp in {1,2,3,4} and each of the three models, the scorer returns the
    probability clamp(base + (risk - 0.4)/2, 0.05, 0.95), with
    risk = 0.4 + (age-50)/200 + (chol-250)/1500 - (thalach-150)/400 and
    base 0.89, 0.87 or 0.84 for XGBoost, RandomForest, Logistic, and the
    label "disease" (shown as MALADIE) when that probability is at least
    0.6, "healthy" (shown as SAIN) otherwise. *)
Theorem predict_refines_spec (m : ModelChoice) (cp : Z) :
  In cp cp_options ->
  risque age chol thalach = spec_risk age chol thalach
  /\ predict (option_text m) age chol thalach cp =
       Py.ret {| proba := spec_proba m age chol thalach;
                 value := shown (spec_label (spec_proba m age chol thalach)) |}.
Proof.
  intros _. split; [reflexivity|].
  destruct (predict_in_domain m cp) as (p & Hp & Heq & _).
  rewrite Hp, <- Heq. unfold spec_label.
  destruct (PrimFloat.leb 0.6%float p); reflexivity.
Qed.

(** C2. Over the sliders and for every model, the probability returned by
    the scorer lies in the closed interval [0.05, 0.95]. *)
Theorem proba_clamped (m : ModelChoice) (cp : Z) :
  exists r,
    predict (option_text m) age chol thalach cp = Py.ret r
    /\ PrimFloat.leb 0.05%float (proba r) = true
    /\ PrimFloat.leb (proba r) 0.95%float = true.
Proof.
  destruct (predict_in_domain m cp) as (p & Hp & _ & Hlo & Hhi & _).
  eexists. split; [exact Hp|]. simpl. auto.
Qed.

(** C3. Over the sliders, for cp in {1,2,3,4} and every model, the
    probability is at least 0.6275, hence at least 0.6: the scorer always
    shows the "disease" label and never the "healthy" one. *)
Theorem always_disease (m : ModelChoice) (cp : Z) :
  In cp cp_options ->
  exists r,
    predict (option_text m) age chol thalach cp = Py.ret r
    /\ PrimFloat.leb 0.6275%float (proba r) = true
    /\ PrimFloat.leb 0.6%float (proba r) = true
    /\ value r = shown disease
    /\ value r <> shown healthy.
Proof.
  intros _.
  destruct (predict_in_domain m cp) as (p & Hp & _ & _ & _ & H1 & H2).
  eexists. split; [exact Hp|]. simpl. rewrite H2.
  repeat split; try assumption. discriminate.
Qed.

End Scorer.

Lemma predict_refines_spec_witness :
  in_slider age_range 63 /\ in_slider chol_range 233 /\
  in_slider thalach_range 150 /\ In 3 cp_options /\
  risque 63 233 150 = spec_risk 63 233 150 /\
  predict (option_text Logistic) 63 233 150 3 =
    Py.ret {| proba := spec_proba Logistic 63 233 150;
              value := shown (spec_label (spec_proba Logistic 63 233 150)) |}.
Proof.
  assert (Ha : in_slider age_range 63) by slider_bounds.
  assert (Hc : in_slider chol_range 233) by slider_bounds.
  assert (Ht : in_slider thalach_range 150) by slider_bounds.
  assert (Hp : In 3 cp_options) by (simpl; auto).
  refine (conj Ha (conj Hc (conj Ht (conj Hp _)))).
  exact (predict_refines_spec 63 233 150 Ha Hc Ht Logistic 3 Hp).
Defined.

Lemma proba_clamped_witness :
  in_slider age_range 20 /\ in_slider chol_range 100 /\
  in_slider thalach_range 220 /\
  exists r,
    predict (option_text RandomForest) 20 100 220 1 = Py.ret r
    /\ PrimFloat.leb 0.05%float (proba r) = true
    /\ PrimFloat.leb (proba r) 0.95%float = true.
Proof.
  assert (Ha : in_slider age_range 20) by slider_bounds.
  assert (Hc : in_slider chol_range 100) by slider_bounds.
  assert (Ht : in_slider thalach_range 220) by slider_bounds.
  refine (conj Ha (conj Hc (conj Ht _))).
  exact (proba_clamped 20 100 220 Ha Hc Ht RandomForest 1).
Defined.

Lemma always_disease_witness :
  in_slider age_range 20 /\ in_slider chol_range 100 /\
  in_slider thalach_range 220 /\ In 1 cp_options /\
  exists r,
    predict (option_text Logistic) 20 100 220 1 = Py.ret r
    /\ PrimFloat.leb 0.6275%float (proba r) = true
    /\ PrimFloat.leb 0.6%float (proba r) = true
    /\ value r = shown disease
    /\ value r <> shown healthy.
Proof.
  assert (Ha : in_slider age_range 20) by slider_bounds.
  assert (Hc : in_slider chol_range 100) by slider_bounds.
  assert (Ht : in_slider thalach_range 220) by slider_bounds.
  assert (Hp : In 1 cp_options) by (simpl; auto).
  refine (conj Ha (conj Hc (conj Ht (conj Hp _)))).
  exact (always_disease 20 100 220 Ha Hc Ht Logistic 1 Hp).
Defined.

(** C6. Two runs of the scorer that agree on the model, age, chol and thalach
    return the same result whatever the two values of cp: cp does not enter
    the computation. *)
Theorem predict_ignores_cp (model_choice : string) (age chol thalach cp cp' : Z) :
  predict model_choice age chol thalach cp =
  predict model_choice age chol thalach cp'.
Proof. reflexivity. Qed.

(** C7. At age=80, chol=600, thalach=70, cp=4 with RandomForest the risk is
    0.9833 to four decimals, the unclamped score 0.87 + (risk - 0.4)/2 is
    above 0.95, the probability is exactly 0.95 and the label is "disease". *)
Theorem predict_upper_corner :
  let risk := risque 80 600 70 in
  PrimFloat.leb 0.98325%float risk = true
  /\ PrimFloat.ltb risk 0.98335%float = true
  /\ PrimFloat.ltb 0.95%float (raw_score 0.87%float risk) = true
  /\ predict (option_text RandomForest) 80 600 70 4 =
       Py.ret {| proba := 0.95%float; value := shown disease |}.
Proof. vm_compute. repeat split. Qed.

(** The bound 0.6275 is attained at the corner where the risk is lowest. *)
Lemma predict_lower_corner :
  predict (option_text Logistic) 20 100 220 1 =
    Py.ret {| proba := 0.6275%float; value := shown disease |}.
Proof. vm_compute. reflexivity. Qed.

(** C8. At age=50, chol=250, thalach=150 with XGBoost, for any cp, the risk
    is exactly 0.4, the probability exactly 0.89 and the label "disease". *)
Theorem predict_centre (cp : Z) :
  risque 50 250 150 = 0.4%float
  /\ predict (option_text XGBoost) 50 250 150 cp =
       Py.ret {| proba := 0.89%float; value := shown disease |}.
Proof. split; vm_compute; reflexivity. Qed.

(** ** The data loader *)

Lemma combine_fst {A B} (l : list A) (l' : list B) :
  List.length l = List.length l' -> map fst (combine l l') = l.
Proof.
  revert l'. induction l as [|a l IH]; intros [|b l'] H; simpl in *;
    try discriminate; [reflexivity|].
  f_equal. apply IH. congruence.
Qed.

Lemma combine_snd {A B} (l : list A) (l' : list B) :
  List.length l = List.length l' -> map snd (combine l l') = l'.
Proof.
  revert l'. induction l as [|a l IH]; intros [|b l'] H; simpl in *;
    try discriminate; [reflexivity|].
  f_equal. apply IH. congruence.
Qed.

Lemma set_columns_ok (df : pd.DataFrame) (names : list string) :
  List.length df = List.length names ->
  pd.set_columns df names = Py.ret (combine names (pd.data df)).
Proof.
  intros H. unfold pd.set_columns.
  rewrite H, Nat.eqb_refl. reflexivity.
Qed.

Lemma set_columns_raises (df : pd.DataFrame) (names : list string) :
  List.length df <> List.length names ->
  exists e, pd.set_columns df names = Py.raise e.
Proof.
  intros H. unfold pd.set_columns.
  destruct (Nat.eqb_spec (List.length names) (List.length df)) as [E|E].
  - congruence.
  - eexists. reflexivity.
Qed.

Section LoaderFacts.

Variable read_csv : source -> Py.result pd.DataFrame.

(** [load_raises] lists exactly the runs in which the [try] raises. *)
Lemma load_try_raises (uploaded_file : option string) :
  load_raises read_csv uploaded_file <->
  exists e, load_try read_csv uploaded_file = Py.raise e.
Proof.
  unfold load_raises, load_try. destruct uploaded_file as [f|].
  - reflexivity.
  - split.
    + intros [[e He] | (df & Hdf & Hlen)].
      * exists e. rewrite He. reflexivity.
      * rewrite Hdf. simpl. apply set_columns_raises, Hlen.
    + intros [e He]. destruct (read_csv (Remote url)) as [e'|df] eqn:Hr.
      * left. exists e'. reflexivity.
      * right. exists df. split; [reflexivity|]. intros Hlen.
        simpl in He. rewrite (set_columns_ok _ _ Hlen) in He. discriminate.
Qed.

(** C4. Whenever loading raises, on either path (the upload cannot be
    parsed, the remote file cannot be fetched, or the remote table is
    malformed), the loader returns the literal three-row frame
    age=[45,55,65], chol=[210,260,320], thalach=[150,140,120],
    target=[0,1,1] and emits the warning banner. *)
Theorem load_falls_back (uploaded_file : option string) :
  load_raises read_csv uploaded_file ->
  load read_csv uploaded_file =
    ( [ ("age", pd.Int64 [45; 55; 65]);
        ("chol", pd.Int64 [210; 260; 320]);
        ("thalach", pd.Int64 [150; 140; 120]);
        ("target", pd.Int64 [0; 1; 1]) ],
      [ warning "⚠️ Problème dataset – données par défaut utilisées" ] ).
Proof.
  intros H. apply load_try_raises in H. destruct H as [e He].
  unfold load. rewrite He. reflexivity.
Qed.

(** C5, as amended.  When no file is uploaded, the remote fetch succeeds and
    the fetched table has exactly fourteen columns, the loader returns that
    table under the fixed fourteen names, in their order, whatever names the
    remote file had; the columns of cells are unchanged and no warning is
    emitted. *)
Theorem load_renames_remote (df : pd.DataFrame) :
  read_csv (Remote url) = Py.ret df ->
  List.length df = 14%nat ->
  let loaded := load read_csv None in
  pd.columns (fst loaded) =
    [ "age"; "sex"; "cp"; "trestbps"; "chol"; "fbs"; "restecg";
      "thalach"; "exang"; "oldpeak"; "slope"; "ca"; "thal"; "target" ]
  /\ pd.data (fst loaded) = pd.data df
  /\ snd loaded = [].
Proof.
  intros Hr Hlen. cbv zeta. unfold load, load_try. rewrite Hr. simpl Py.bind.
  rewrite set_columns_ok by exact Hlen. unfold Py.ret. cbn [fst snd].
  unfold pd.columns, pd.data.
  rewrite combine_fst, combine_snd
    by (rewrite length_map; symmetry; exact Hlen).
  repeat split.
Qed.

End LoaderFacts.

Lemma load_falls_back_witness :
  load_raises (read_csv_over offline) (Some broken_upload)
  /\ load (read_csv_over offline) (Some broken_upload) =
       ( [ ("age", pd.Int64 [45; 55; 65]);
           ("chol", pd.Int64 [210; 260; 320]);
           ("thalach", pd.Int64 [150; 140; 120]);
           ("target", pd.Int64 [0; 1; 1]) ],
         [ warning "⚠️ Problème dataset – données par défaut utilisées" ] ).
Proof.
  assert (H : load_raises (read_csv_over offline) (Some broken_upload)).
  { eexists. vm_compute. reflexivity. }
  split; [exact H|].
  exact (load_falls_back (read_csv_over offline) (Some broken_upload) H).
Defined.

Lemma load_renames_remote_witness :
  read_csv_over online (Remote url) = Py.ret remote_frame
  /\ List.length remote_frame = 14%nat
  /\ pd.columns (fst (load (read_csv_over online) None)) =
       [ "age"; "sex"; "cp"; "trestbps"; "chol"; "fbs"; "restecg";
         "thalach"; "exang"; "oldpeak"; "slope"; "ca"; "thal"; "target" ]
  /\ pd.data (fst (load (read_csv_over online) None)) = pd.data remote_frame
  /\ snd (load (read_csv_over online) None) = [].
Proof.
  assert (Hr : read_csv_over online (Remote url) = Py.ret remote_frame)
    by (vm_compute; reflexivity).
  assert (Hl : List.length remote_frame = 14%nat) by reflexivity.
  refine (conj Hr (conj Hl _)).
  exact (load_renames_remote (read_csv_over online) remote_frame Hr Hl).
Defined.

(** C5, as first stated, fails: a fetch that succeeds with a table of one
    column does not come back under the fourteen names; the assignment
    raises and the loader falls back. *)
Lemma load_renames_remote_counterexample :
  ~ (forall (read_csv : source -> Py.result pd.DataFrame) (df : pd.DataFrame),
        read_csv (Remote url) = Py.ret df ->
        pd.columns (fst (load read_csv None)) = heart_columns
        /\ pd.data (fst (load read_csv None)) = pd.data df).
Proof.
  intros H.
  specialize (H (fun _ => Py.ret [("x", pd.Int64 [1])])
                [("x", pd.Int64 [1])] eq_refl).
  destruct H as [H _]. vm_compute in H. discriminate H.
Qed.

(** ** The exports *)

(** C9. The CSV export is the header
    [Modèle,Accuracy (%),F1-Score (%),ROC-AUC (%)] followed by exactly the
    three fixed rows, under the name resultats_modeles.csv, and reading that
    text back as CSV yields the results table. *)
Theorem export_csv_round_trip (os : OS) (s : Session.t) :
  data (export_csv os s) =
    text_lines os [ "Modèle,Accuracy (%),F1-Score (%),ROC-AUC (%)";
                    "XGBoost,89.4,89.4,95.6";
                    "RandomForest,87.9,87.8,94.5";
                    "Logistic,84.8,84.6,91.2" ]
  /\ file_name (export_csv os s) = "resultats_modeles.csv"
  /\ pd.read_csv_text (data (export_csv os s)) = Py.ret results_df.
Proof. destruct os; vm_compute; repeat split. Qed.

(** C10. The JSON export is the text of the fixed dictionary: the keys
    meilleur_modele, f1_score_max and features_importantes, in this order,
    mapped to "XGBoost", 89.4 and the sequence thalach, oldpeak, cp; it is
    the same text whatever the loaded dataset and the inputs of the scorer. *)
Theorem export_json_fixed (s s' : Session.t) :
  data (export_json s) =
    "{'meilleur_modele': 'XGBoost', 'f1_score_max': 89.4, 'features_importantes': ['thalach', 'oldpeak', 'cp']}"
  /\ export_json s = export_json s'
  /\ exists items,
       json_data = Py.Dict items
       /\ map fst items =
            ["meilleur_modele"; "f1_score_max"; "features_importantes"]
       /\ Py.getitem items "meilleur_modele" = Py.ret (Py.Str "XGBoost")
       /\ Py.getitem items "f1_score_max" = Py.ret (Py.Float 89.4%float)
       /\ Py.getitem items "features_importantes" =
            Py.ret (Py.List [Py.Str "thalach"; Py.Str "oldpeak"; Py.Str "cp"]).
Proof.
  split; [vm_compute; reflexivity|]. split; [reflexivity|].
  eexists. split; [reflexivity|]. repeat split.
Qed.

(* ================================================================== *)
(** * Further properties                                                *)
(* ================================================================== *)

(** ** Order of binary64, from the specification of the primitives *)

Ltac order_cases :=
  repeat (simpl in *; subst;
          match goal with
          | H : context [PosDef.Pos.compare_cont Eq ?a ?b] |- _ =>
              change (PosDef.Pos.compare_cont Eq a b) with (Pos.compare a b) in H
          | |- context [PosDef.Pos.compare_cont Eq ?a ?b] =>
              change (PosDef.Pos.compare_cont Eq a b) with (Pos.compare a b)
          | H : context [Z.compare ?a ?b] |- _ => destruct (Z.compare_spec a b)
          | |- context [Z.compare ?a ?b] => destruct (Z.compare_spec a b)
          | H : context [Pos.compare ?a ?b] |- _ =>
              destruct (Pos.compare_spec a b)
          | |- context [Pos.compare ?a ?b] => destruct (Pos.compare_spec a b)
          end);
  simpl in *; try discriminate; try reflexivity; try lia.

Lemma SFleb_trans (x y z : spec_float) :
  SFleb x y = true -> SFleb y z = true -> SFleb x z = true.
Proof.
  unfold SFleb, SFcompare.
  destruct x as [[]| [] | | [] mx ex], y as [[]| [] | | [] my ey],
           z as [[]| [] | | [] mz ez];
    simpl; try discriminate; try reflexivity; intros; order_cases.
Qed.

Lemma leb_trans (x y z : float) :
  PrimFloat.leb x y = true -> PrimFloat.leb y z = true ->
  PrimFloat.leb x z = true.
Proof. rewrite !leb_spec. apply SFleb_trans. Qed.

Lemma ltb_leb (x y : float) :
  PrimFloat.ltb x y = true -> PrimFloat.leb x y = true.
Proof.
  rewrite ltb_spec, leb_spec. unfold SFltb, SFleb.
  destruct (SFcompare _ _) as [[]|]; congruence.
Qed.

Lemma leb_refl_l (x y : float) :
  PrimFloat.leb x y = true -> PrimFloat.leb x x = true.
Proof.
  rewrite !leb_spec. unfold SFleb, SFcompare.
  destruct (Prim2SF x) as [[]| [] | | [] mx ex],
           (Prim2SF y) as [[]| [] | | [] my ey];
    simpl; try discriminate; try reflexivity; intros _; order_cases.
Qed.

(** ** The scorer outside the sliders *)

(** The nested [min]/[max] lands in [0.05, 0.95] on every binary64, the
    infinities and NaN included. *)
Lemma clamp_score_bounds (base_score r : float) :
  PrimFloat.leb 0.05%float (clamp_score base_score r) = true
  /\ PrimFloat.leb (clamp_score base_score r) 0.95%float = true.
Proof.
  unfold clamp_score, Py.min, Py.max.
  destruct (PrimFloat.ltb 0.05%float (raw_score base_score r)) eqn:Hlo.
  - destruct (PrimFloat.ltb (raw_score base_score r) 0.95%float) eqn:Hhi.
    + split; apply ltb_leb; assumption.
    + split; vm_compute; reflexivity.
  - split; vm_compute; reflexivity.
Qed.



(** X1. Whenever the scorer returns, for any integers (inside the sliders or
    not) and any model text, the probability lies in [0.05, 0.95], and the
    value shown is MALADIE exactly when the probability is at least 0.6,
    SAIN otherwise. *)
Theorem predict_clamped_everywhere
  (model_choice : string) (age chol thalach cp : Z) (r : Prediction) :
  predict model_choice age chol thalach cp = Py.ret r ->
  PrimFloat.leb 0.05%float (proba r) = true
  /\ PrimFloat.leb (proba r) 0.95%float = true
  /\ (PrimFloat.leb 0.6%float (proba r) = true /\ value r = MALADIE
      \/ PrimFloat.leb 0.6%float (proba r) = false /\ value r = SAIN).
Proof.
  unfold predict.
  destruct (Py.getitem scores_modeles model_choice) as [e|b]; simpl;
    [discriminate|].
  intros H. injection H as <-. simpl.
  fold (clamp_score b (risque age chol thalach)).
  destruct (clamp_score_bounds b (risque age chol thalach)) as [Hlo Hhi].
  repeat split; try assumption.
  destruct (PrimFloat.leb 0.6%float _); auto.
Qed.

Lemma predict_clamped_everywhere_witness :
  predict (option_text XGBoost) 1000 (-40) 0 9 =
    Py.ret {| proba := 0.95%float; value := MALADIE |}
  /\ PrimFloat.leb 0.05%float 0.95%float = true
  /\ PrimFloat.leb 0.95%float 0.95%float = true
  /\ (PrimFloat.leb 0.6%float 0.95%float = true /\ MALADIE = MALADIE
      \/ PrimFloat.leb 0.6%float 0.95%float = false /\ MALADIE = SAIN).
Proof.
  assert (H : predict (option_text XGBoost) 1000 (-40) 0 9 =
              Py.ret {| proba := 0.95%float; value := MALADIE |})
    by (vm_compute; reflexivity).
  split; [exact H|].
  exact (predict_clamped_everywhere _ 1000 (-40) 0 9 _ H).
Defined.


(** ** The scorer along each slider *)

Lemma adjacent_seq {A} (g : nat -> A) (a n i : nat) :
  (a <= i)%nat -> (S i < a + n)%nat ->
  In (g i, g (S i)) (adjacent (map g (seq a n))).
Proof.
  revert a. induction n as [|n IH]; intros a Hlo Hhi; [lia|].
  destruct n as [|n]; [lia|].
  change (seq a (S (S n))) with (a :: seq (S a) (S n)).
  change (adjacent (map g (a :: seq (S a) (S n))))
    with ((g a, g (S a)) :: adjacent (map g (seq (S a) (S n)))).
  destruct (Nat.eq_dec a i) as [->|Hne].
  - left. reflexivity.
  - right. apply IH; lia.
Qed.

Lemma forallb_adjacent (P : float * float -> bool) (f : Z -> float)
  (r : Z * Z) :
  forallb P (adjacent (map f (Zrange r))) = true ->
  forall v, in_slider r v -> in_slider r (v + 1) ->
            P (f v, f (v + 1)) = true.
Proof.
  intros H v [Hlo _] [_ Hhi]. rewrite forallb_forall in H. apply H.
  unfold Zrange. rewrite map_map.
  pose proof (adjacent_seq (fun i => f (fst r + Z.of_nat i)) 0
                (Z.to_nat (snd r - fst r + 1)) (Z.to_nat (v - fst r))) as Hin.
  cbv beta in Hin.
  replace (fst r + Z.of_nat (Z.to_nat (v - fst r))) with v in Hin by lia.
  replace (fst r + Z.of_nat (S (Z.to_nat (v - fst r)))) with (v + 1) in Hin
    by lia.
  apply Hin; lia.
Qed.

(** One step along the age slider. *)
Lemma sweep_age_true :
  forallb (fun ta =>
    forallb (fun tc =>
      let a := (0.4 + fst ta + tc)%float in
      let a' := (0.4 + snd ta + tc)%float in
      forallb (fun tt => step_ok (a - tt)%float (a' - tt)%float)
              thalach_terms)
      chol_terms)
    (adjacent age_terms) = true.
Proof. vm_cast_no_check (eq_refl true). Qed.

(** One step along the cholesterol slider. *)
Lemma sweep_chol_true :
  forallb (fun ta =>
    forallb (fun tc =>
      let a := (0.4 + ta + fst tc)%float in
      let a' := (0.4 + ta + snd tc)%float in
      forallb (fun tt => step_ok (a - tt)%float (a' - tt)%float)
              thalach_terms)
      (adjacent chol_terms))
    age_terms = true.
Proof. vm_cast_no_check (eq_refl true). Qed.

(** One step along the heart-rate slider, and the order of the models. *)
Lemma sweep_thalach_true :
  forallb (fun ta =>
    forallb (fun tc =>
      let a := (0.4 + ta + tc)%float in
      forallb (fun tt => step_ok (a - snd tt)%float (a - fst tt)%float)
              (adjacent thalach_terms))
      chol_terms)
    age_terms = true.
Proof. vm_cast_no_check (eq_refl true). Qed.

Lemma sweep_order_true :
  forallb (fun ta =>
    forallb (fun tc =>
      let a := (0.4 + ta + tc)%float in
      forallb (fun tt => order_ok (a - tt)%float) thalach_terms)
      chol_terms)
    age_terms = true.
Proof. vm_cast_no_check (eq_refl true). Qed.

(** The probability the scorer returns for a model at a point. *)
Lemma predict_clamp_score (m : ModelChoice) (age chol thalach cp : Z) :
  exists r,
    predict (option_text m) age chol thalach cp = Py.ret r
    /\ proba r = clamp_score (spec_base m) (risque age chol thalach).
Proof. eexists. split; [apply predict_unfold|]. reflexivity. Qed.

Lemma clamp_score_refl (b r : float) :
  PrimFloat.leb (clamp_score b r) (clamp_score b r) = true.
Proof.
  apply leb_refl_l with (y := 0.95%float). apply clamp_score_bounds.
Qed.

(** A chain of steps between two positions of a slider. *)
Lemma chain (f : Z -> float) (lo hi : Z) :
  (forall v, PrimFloat.leb (f v) (f v) = true) ->
  (forall v, lo <= v -> v + 1 <= hi ->
             PrimFloat.leb (f v) (f (v + 1)) = true) ->
  forall a b, lo <= a -> a <= b -> b <= hi ->
              PrimFloat.leb (f a) (f b) = true.
Proof.
  intros Hrefl Hstep a b Hlo Hab Hhi.
  replace b with (a + Z.of_nat (Z.to_nat (b - a))) by lia.
  assert (Hn : a + Z.of_nat (Z.to_nat (b - a)) <= hi) by lia.
  revert Hn. generalize (Z.to_nat (b - a)) as n.
  induction n as [|n IH]; intros Hn.
  - rewrite Z.add_0_r. apply Hrefl.
  - apply leb_trans with (y := f (a + Z.of_nat n)).
    + apply IH. lia.
    + replace (a + Z.of_nat (S n)) with (a + Z.of_nat n + 1) by lia.
      apply Hstep; lia.
Qed.

Lemma step_ok_model (r r' : float) (m : ModelChoice) :
  step_ok r r' = true ->
  PrimFloat.leb (clamp_score (spec_base m) r) (clamp_score (spec_base m) r')
    = true.
Proof.
  unfold step_ok. rewrite forallb_forall. intros H. apply H.
  destruct m; simpl; auto.
Qed.

Section Steps.

Variables age chol thalach : Z.
Variable m : ModelChoice.
Hypothesis Hage : in_slider age_range age.
Hypothesis Hchol : in_slider chol_range chol.
Hypothesis Hthalach : in_slider thalach_range thalach.

Lemma step_age :
  in_slider age_range (age + 1) ->
  PrimFloat.leb (clamp_score (spec_base m) (risque age chol thalach))
                (clamp_score (spec_base m) (risque (age + 1) chol thalach))
    = true.
Proof.
  intros Hnext.
  pose proof (forallb_adjacent _ _ _ sweep_age_true age Hage Hnext) as H1.
  cbv beta in H1. cbn [fst snd] in H1.
  pose proof (forallb_table _ _ _ H1 chol Hchol) as H2. cbv beta zeta in H2.
  pose proof (forallb_table _ _ _ H2 thalach Hthalach) as H3. cbv beta in H3.
  exact (step_ok_model _ _ m H3).
Qed.

Lemma step_chol :
  in_slider chol_range (chol + 1) ->
  PrimFloat.leb (clamp_score (spec_base m) (risque age chol thalach))
                (clamp_score (spec_base m) (risque age (chol + 1) thalach))
    = true.
Proof.
  intros Hnext.
  pose proof (forallb_table _ _ _ sweep_chol_true age Hage) as H1.
  cbv beta in H1.
  pose proof (forallb_adjacent _ _ _ H1 chol Hchol Hnext) as H2.
  cbv beta zeta in H2. cbn [fst snd] in H2.
  pose proof (forallb_table _ _ _ H2 thalach Hthalach) as H3. cbv beta in H3.
  exact (step_ok_model _ _ m H3).
Qed.

Lemma step_thalach :
  in_slider thalach_range (thalach + 1) ->
  PrimFloat.leb (clamp_score (spec_base m) (risque age chol (thalach + 1)))
                (clamp_score (spec_base m) (risque age chol thalach))
    = true.
Proof.
  intros Hnext.
  pose proof (forallb_table _ _ _ sweep_thalach_true age Hage) as H1.
  cbv beta in H1.
  pose proof (forallb_table _ _ _ H1 chol Hchol) as H2. cbv beta zeta in H2.
  pose proof (forallb_adjacent _ _ _ H2 thalach Hthalach Hnext) as H3.
  cbv beta in H3. cbn [fst snd] in H3.
  exact (step_ok_model _ _ m H3).
Qed.

Lemma order_at_point :
  order_ok (risque age chol thalach) = true.
Proof.
  pose proof (forallb_table _ _ _ sweep_order_true age Hage) as H1.
  cbv beta in H1.
  pose proof (forallb_table _ _ _ H1 chol Hchol) as H2. cbv beta zeta in H2.
  exact (forallb_table _ _ _ H2 thalach Hthalach).
Qed.

End Steps.

(** X3. Over the sliders, an older age never lowers the probability: with
    the model, chol and thalach fixed, age <= age' gives
    proba(age) <= proba(age'). *)
Theorem proba_monotone_age
  (m : ModelChoice) (age age' chol thalach cp cp' : Z) :
  in_slider age_range age -> in_slider age_range age' ->
  in_slider chol_range chol -> in_slider thalach_range thalach ->
  age <= age' ->
  exists r r',
    predict (option_text m) age chol thalach cp = Py.ret r
    /\ predict (option_text m) age' chol thalach cp' = Py.ret r'
    /\ PrimFloat.leb (proba r) (proba r') = true.
Proof.
  intros Ha Ha' Hc Ht Hle.
  destruct (predict_clamp_score m age chol thalach cp) as (r & Hr & Hp).
  destruct (predict_clamp_score m age' chol thalach cp') as (r' & Hr' & Hp').
  exists r, r'. rewrite Hp, Hp'. repeat split; try assumption.
  apply (chain (fun v => clamp_score (spec_base m) (risque v chol thalach))
               (fst age_range) (snd age_range)).
  - intros v. apply clamp_score_refl.
  - intros v Hlo Hhi. apply step_age; try assumption;
      unfold in_slider in *; lia.
  - apply Ha.
  - exact Hle.
  - apply Ha'.
Qed.

Lemma proba_monotone_age_witness :
  in_slider age_range 30 /\ in_slider age_range 70 /\
  in_slider chol_range 240 /\ in_slider thalach_range 160 /\ 30 <= 70 /\
  exists r r',
    predict (option_text Logistic) 30 240 160 1 = Py.ret r
    /\ predict (option_text Logistic) 70 240 160 1 = Py.ret r'
    /\ PrimFloat.leb (proba r) (proba r') = true.
Proof.
  assert (Ha : in_slider age_range 30) by slider_bounds.
  assert (Ha' : in_slider age_range 70) by slider_bounds.
  assert (Hc : in_slider chol_range 240) by slider_bounds.
  assert (Ht : in_slider thalach_range 160) by slider_bounds.
  assert (Hle : 30 <= 70) by lia.
  refine (conj Ha (conj Ha' (conj Hc (conj Ht (conj Hle _))))).
  exact (proba_monotone_age Logistic 30 70 240 160 1 1 Ha Ha' Hc Ht Hle).
Defined.

(** X4. Over the sliders, a higher cholesterol never lowers the probability:
    with the model, age and thalach fixed, chol <= chol' gives
    proba(chol) <= proba(chol'). *)
Theorem proba_monotone_chol
  (m : ModelChoice) (age chol chol' thalach cp cp' : Z) :
  in_slider age_range age -> in_slider chol_range chol ->
  in_slider chol_range chol' -> in_slider thalach_range thalach ->
  chol <= chol' ->
  exists r r',
    predict (option_text m) age chol thalach cp = Py.ret r
    /\ predict (option_text m) age chol' thalach cp' = Py.ret r'
    /\ PrimFloat.leb (proba r) (proba r') = true.
Proof.
  intros Ha Hc Hc' Ht Hle.
  destruct (predict_clamp_score m age chol thalach cp) as (r & Hr & Hp).
  destruct (predict_clamp_score m age chol' thalach cp') as (r' & Hr' & Hp').
  exists r, r'. rewrite Hp, Hp'. repeat split; try assumption.
  apply (chain (fun v => clamp_score (spec_base m) (risque age v thalach))
               (fst chol_range) (snd chol_range)).
  - intros v. apply clamp_score_refl.
  - intros v Hlo Hhi. apply step_chol; try assumption;
      unfold in_slider in *; lia.
  - apply Hc.
  - exact Hle.
  - apply Hc'.
Qed.

Lemma proba_monotone_chol_witness :
  in_slider age_range 55 /\ in_slider chol_range 180 /\
  in_slider chol_range 420 /\ in_slider thalach_range 130 /\ 180 <= 420 /\
  exists r r',
    predict (option_text XGBoost) 55 180 130 2 = Py.ret r
    /\ predict (option_text XGBoost) 55 420 130 2 = Py.ret r'
    /\ PrimFloat.leb (proba r) (proba r') = true.
Proof.
  assert (Ha : in_slider age_range 55) by slider_bounds.
  assert (Hc : in_slider chol_range 180) by slider_bounds.
  assert (Hc' : in_slider chol_range 420) by slider_bounds.
  assert (Ht : in_slider thalach_range 130) by slider_bounds.
  assert (Hle : 180 <= 420) by lia.
  refine (conj Ha (conj Hc (conj Hc' (conj Ht (conj Hle _))))).
  exact (proba_monotone_chol XGBoost 55 180 420 130 2 2 Ha Hc Hc' Ht Hle).
Defined.

(** X5. Over the sliders, a higher maximum heart rate never raises the
    probability: with the model, age and chol fixed, thalach <= thalach'
    gives proba(thalach') <= proba(thalach). *)
Theorem proba_antitone_thalach
  (m : ModelChoice) (age chol thalach thalach' cp cp' : Z) :
  in_slider age_range age -> in_slider chol_range chol ->
  in_slider thalach_range thalach -> in_slider thalach_range thalach' ->
  thalach <= thalach' ->
  exists r r',
    predict (option_text m) age chol thalach cp = Py.ret r
    /\ predict (option_text m) age chol thalach' cp' = Py.ret r'
    /\ PrimFloat.leb (proba r') (proba r) = true.
Proof.
  intros Ha Hc Ht Ht' Hle.
  destruct (predict_clamp_score m age chol thalach cp) as (r & Hr & Hp).
  destruct (predict_clamp_score m age chol thalach' cp') as (r' & Hr' & Hp').
  exists r, r'. rewrite Hp, Hp'. repeat split; try assumption.
  pose (f := fun v => clamp_score (spec_base m) (risque age chol (- v))).
  replace thalach with (- (- thalach)) by lia.
  replace thalach' with (- (- thalach')) by lia.
  apply (chain f (- snd thalach_range) (- fst thalach_range)).
  - intros v. apply clamp_score_refl.
  - intros v Hlo Hhi. unfold f.
    replace (- v) with (- (v + 1) + 1) by lia.
    apply step_thalach; try assumption; unfold in_slider in *;
      simpl in *; lia.
  - unfold in_slider in Ht'. lia.
  - lia.
  - unfold in_slider in Ht. lia.
Qed.

Lemma proba_antitone_thalach_witness :
  in_slider age_range 45 /\ in_slider chol_range 210 /\
  in_slider thalach_range 90 /\ in_slider thalach_range 200 /\ 90 <= 200 /\
  exists r r',
    predict (option_text RandomForest) 45 210 90 4 = Py.ret r
    /\ predict (option_text RandomForest) 45 210 200 4 = Py.ret r'
    /\ PrimFloat.leb (proba r') (proba r) = true.
Proof.
  assert (Ha : in_slider age_range 45) by slider_bounds.
  assert (Hc : in_slider chol_range 210) by slider_bounds.
  assert (Ht : in_slider thalach_range 90) by slider_bounds.
  assert (Ht' : in_slider thalach_range 200) by slider_bounds.
  assert (Hle : 90 <= 200) by lia.
  refine (conj Ha (conj Hc (conj Ht (conj Ht' (conj Hle _))))).
  exact (proba_antitone_thalach RandomForest 45 210 90 200 4 4
           Ha Hc Ht Ht' Hle).
Defined.

(** X6. Over the sliders and at the same inputs, the three models are
    ordered as their base scores: the probability with Logistic is at most
    the one with RandomForest, which is at most the one with XGBoost. *)
Theorem proba_model_order (age chol thalach cp : Z) :
  in_slider age_range age -> in_slider chol_range chol ->
  in_slider thalach_range thalach ->
  exists rl rf rx,
    predict (option_text Logistic) age chol thalach cp = Py.ret rl
    /\ predict (option_text RandomForest) age chol thalach cp = Py.ret rf
    /\ predict (option_text XGBoost) age chol thalach cp = Py.ret rx
    /\ PrimFloat.leb (proba rl) (proba rf) = true
    /\ PrimFloat.leb (proba rf) (proba rx) = true.
Proof.
  intros Ha Hc Ht.
  destruct (predict_clamp_score Logistic age chol thalach cp)
    as (rl & Hl & Hpl).
  destruct (predict_clamp_score RandomForest age chol thalach cp)
    as (rf & Hf & Hpf).
  destruct (predict_clamp_score XGBoost age chol thalach cp)
    as (rx & Hx & Hpx).
  exists rl, rf, rx. rewrite Hpl, Hpf, Hpx.
  pose proof (order_at_point age chol thalach Ha Hc Ht) as H.
  unfold order_ok in H. apply andb_prop in H. destruct H as [H1 H2].
  repeat split; assumption.
Qed.

Lemma proba_model_order_witness :
  in_slider age_range 35 /\ in_slider chol_range 300 /\
  in_slider thalach_range 175 /\
  exists rl rf rx,
    predict (option_text Logistic) 35 300 175 2 = Py.ret rl
    /\ predict (option_text RandomForest) 35 300 175 2 = Py.ret rf
    /\ predict (option_text XGBoost) 35 300 175 2 = Py.ret rx
    /\ PrimFloat.leb (proba rl) (proba rf) = true
    /\ PrimFloat.leb (proba rf) (proba rx) = true.
Proof.
  assert (Ha : in_slider age_range 35) by slider_bounds.
  assert (Hc : in_slider chol_range 300) by slider_bounds.
  assert (Ht : in_slider thalach_range 175) by slider_bounds.
  refine (conj Ha (conj Hc (conj Ht _))).
  exact (proba_model_order 35 300 175 2 Ha Hc Ht).
Defined.

(** ** The loader, continued *)

Lemma has_column_names (name : string) (df df' : pd.DataFrame) :
  pd.columns df = pd.columns df' -> has_column name df = has_column name df'.
Proof. unfold has_column. intros ->. reflexivity. Qed.

Section LoaderMore.

Variable read_csv : source -> Py.result pd.DataFrame.

(** What a successful anonymous load looks like. *)
Lemma load_remote_cases :
  load read_csv None = (fallback_df, [fallback_warning])
  \/ exists df, read_csv (Remote url) = Py.ret df
                /\ List.length df = 14%nat
                /\ load read_csv None = (combine heart_columns (pd.data df), []).
Proof.
  unfold load, load_try.
  destruct (read_csv (Remote url)) as [e|df]; simpl; [left; reflexivity|].
  destruct (Nat.eq_dec (List.length df) 14) as [Hlen|Hlen].
  - right. exists df. rewrite (set_columns_ok df heart_columns Hlen).
    repeat split. exact Hlen.
  - left. destruct (set_columns_raises df heart_columns Hlen) as [e ->].
    reflexivity.
Qed.


(** Shape of the frame loaded with no upload. *)
Lemma load_remote_shape :
  histogram_shown (fst (load read_csv None)) = true
  /\ has_column "age" (fst (load read_csv None)) = true
  /\ has_column "target" (fst (load read_csv None)) = true
  /\ (metric_colonnes (fst (load read_csv None)) = 14%nat
      \/ metric_colonnes (fst (load read_csv None)) = 4%nat).
Proof.
  destruct load_remote_cases as [H | (df & _ & Hlen & H)]; rewrite H;
    cbn [fst].
  - vm_compute. repeat split. right. reflexivity.
  - assert (Hc : pd.columns (combine heart_columns (pd.data df))
                 = heart_columns).
    { unfold pd.columns, pd.data. apply combine_fst.
      rewrite length_map. symmetry. exact Hlen. }
    unfold histogram_shown, metric_colonnes, has_column. rewrite Hc.
    repeat split. left. reflexivity.
Qed.

(** X8. With no upload, whatever the remote read does, the loaded frame has
    an age and a target column, so the histogram is drawn, and it has
    fourteen columns or, after a fallback, four. *)
Theorem load_remote_invariant :
  let df := fst (load read_csv None) in
  histogram_shown df = true
  /\ has_column "age" df = true
  /\ has_column "target" df = true
  /\ (metric_colonnes df = 14%nat \/ metric_colonnes df = 4%nat).
Proof. exact load_remote_shape. Qed.

(** X9. The rename is by position: when the remote table has fourteen
    columns, the column the loaded frame gives under the i-th fixed name is
    the i-th column of the remote table, whatever its name was there; in
    particular [target] is its last column and [age] its first. *)
Theorem load_rename_by_position (df : pd.DataFrame) (i : nat) :
  read_csv (Remote url) = Py.ret df ->
  List.length df = 14%nat ->
  (i < 14)%nat ->
  select (fst (load read_csv None)) (nth i heart_columns "") =
    [nth i (pd.data df) (pd.Object [])].
Proof.
  intros Hr Hlen Hi. unfold load, load_try. rewrite Hr. simpl Py.bind.
  rewrite (set_columns_ok df heart_columns Hlen). unfold Py.ret. cbn [fst].
  do 15 (destruct df as [|[? ?] df]; try discriminate Hlen).
  do 14 (destruct i as [|i]; [reflexivity|]). lia.
Qed.

(** X10. The histogram is left out only for an upload that was read
    successfully: then the frame shown is the uploaded one, as read. *)
Theorem histogram_hidden_only_for_upload (uploaded_file : option string) :
  histogram_shown (fst (load read_csv uploaded_file)) = false ->
  exists f,
    uploaded_file = Some f
    /\ read_csv (Upload f) = Py.ret (fst (load read_csv uploaded_file))
    /\ snd (load read_csv uploaded_file) = [].
Proof.
  destruct uploaded_file as [f|].
  - unfold load, load_try.
    destruct (read_csv (Upload f)) as [e|df] eqn:Hr; simpl.
    + intros H. vm_compute in H. discriminate H.
    + intros _. exists f. repeat split. exact Hr.
  - intros H. destruct load_remote_shape as [H' _].
    rewrite H' in H. discriminate H.
Qed.

End LoaderMore.

Lemma load_rename_by_position_witness :
  read_csv_over online (Remote url) = Py.ret remote_frame
  /\ List.length remote_frame = 14%nat
  /\ (13 < 14)%nat
  /\ select (fst (load (read_csv_over online) None)) (nth 13 heart_columns "")
     = [nth 13 (pd.data remote_frame) (pd.Object [])].
Proof.
  assert (Hr : read_csv_over online (Remote url) = Py.ret remote_frame)
    by (vm_compute; reflexivity).
  assert (Hl : List.length remote_frame = 14%nat) by reflexivity.
  assert (Hi : (13 < 14)%nat) by lia.
  refine (conj Hr (conj Hl (conj Hi _))).
  exact (load_rename_by_position (read_csv_over online) remote_frame 13
           Hr Hl Hi).
Defined.

Lemma histogram_hidden_only_for_upload_witness :
  histogram_shown
    (fst (load (read_csv_over offline) (Some plain_upload))) = false
  /\ exists f,
       Some plain_upload = Some f
       /\ read_csv_over offline (Upload f) =
            Py.ret (fst (load (read_csv_over offline) (Some plain_upload)))
       /\ snd (load (read_csv_over offline) (Some plain_upload)) = [].
Proof.
  assert (H : histogram_shown
                (fst (load (read_csv_over offline) (Some plain_upload)))
              = false) by (vm_compute; reflexivity).
  split; [exact H|].
  exact (histogram_hidden_only_for_upload (read_csv_over offline)
           (Some plain_upload) H).
Defined.

(** X11. Uploading the very text that the remote address serves gives the
    same columns of cells as fetching it, but under the file's own header:
    only the remote path renames. *)
Theorem upload_keeps_header
  (urlopen : string -> Py.result string) (text : string) (df : pd.DataFrame) :
  urlopen url = Py.ret text ->
  pd.read_csv_text text = Py.ret df ->
  List.length df = 14%nat ->
  let uploaded := load (read_csv_over urlopen) (Some text) in
  let fetched := load (read_csv_over urlopen) None in
  uploaded = (df, [])
  /\ pd.data (fst fetched) = pd.data (fst uploaded)
  /\ pd.columns (fst uploaded) = pd.columns df
  /\ pd.columns (fst fetched) = heart_columns.
Proof.
  intros Hu Hp Hlen. cbv zeta.
  assert (Hup : load (read_csv_over urlopen) (Some text) = (df, [])).
  { unfold load, load_try, read_csv_over. rewrite Hp. reflexivity. }
  assert (Hr : read_csv_over urlopen (Remote url) = Py.ret df).
  { unfold read_csv_over. rewrite Hu. simpl. exact Hp. }
  rewrite Hup. cbn [fst].
  unfold load, load_try. rewrite Hr. simpl Py.bind.
  rewrite (set_columns_ok df heart_columns Hlen). unfold Py.ret. cbn [fst].
  unfold pd.columns, pd.data.
  rewrite combine_fst, combine_snd
    by (rewrite length_map; symmetry; exact Hlen).
  repeat split.
Qed.

Lemma upload_keeps_header_witness :
  online url = Py.ret remote_sample
  /\ pd.read_csv_text remote_sample = Py.ret remote_frame
  /\ List.length remote_frame = 14%nat
  /\ load (read_csv_over online) (Some remote_sample) = (remote_frame, [])
  /\ pd.data (fst (load (read_csv_over online) None)) =
       pd.data (fst (load (read_csv_over online) (Some remote_sample)))
  /\ pd.columns (fst (load (read_csv_over online) (Some remote_sample))) =
       pd.columns remote_frame
  /\ pd.columns (fst (load (read_csv_over online) None)) = heart_columns.
Proof.
  assert (Hu : online url = Py.ret remote_sample) by reflexivity.
  assert (Hp : pd.read_csv_text remote_sample = Py.ret remote_frame)
    by (vm_compute; reflexivity).
  assert (Hl : List.length remote_frame = 14%nat) by reflexivity.
  refine (conj Hu (conj Hp (conj Hl _))).
  exact (upload_keeps_header online remote_sample remote_frame Hu Hp Hl).
Defined.

(** ** The metric of the form *)



(** ** The pictures of tab 3 *)

Ltac open_cases open_image :=
  repeat match goal with
         | |- context [open_image ?f] =>
             let E := fresh "E" in
             destruct (open_image f) as [?|[]] eqn:E
         end.

(** X13. The pictures shown are those that come before the first one that
    cannot be opened, in order; the information message follows them exactly
    when one of the three cannot be opened, and nothing is shown after it. *)
Theorem show_pictures_prefix (open_image : string -> Py.result unit) :
  exists k : nat,
    (k <= 3)%nat
    /\ show_pictures open_image =
         (firstn k pictures
            ++ (if (k <? 3)%nat then [images_info] else []))%list
    /\ (forall f, In f (firstn k picture_files) -> open_image f = Py.ret tt)
    /\ ((k < 3)%nat ->
        exists e, open_image (nth k picture_files "") = Py.raise e).
Proof.
  unfold show_pictures.
  destruct (open_image "eda.png") as [e1|[]] eqn:E1.
  { exists 0%nat. split; [lia|]; split; [reflexivity|]; split.
    - intros f [].
    - intros _. exists e1. exact E1. }
  destruct (open_image "importance.png") as [e2|[]] eqn:E2.
  { exists 1%nat. split; [lia|]; split; [reflexivity|]; split.
    - intros f [<-|[]]. exact E1.
    - intros _. exists e2. exact E2. }
  destruct (open_image "confusion.png") as [e3|[]] eqn:E3.
  { exists 2%nat. split; [lia|]; split; [reflexivity|]; split.
    - intros f [<-|[<-|[]]]; assumption.
    - intros _. exists e3. exact E3. }
  exists 3%nat. split; [lia|]; split; [reflexivity|]; split.
  - intros f [<-|[<-|[<-|[]]]]; assumption.
  - intros H. lia.
Qed.

(** ** The text of the JSON download *)


